(** * Mirror conditions (util/conditions/v1beta2/mirror.go)

    A shallow embedding of the mirror-condition builder of cluster-api and
    the properties its specification states about it.

    Go strings are byte strings: they are kept as [string] (one [ascii] per
    byte).  The [*MirrorOptions] pointer that the option directives mutate
    lives in an explicit store of [MirrorOptions] cells; every function that
    allocates or mutates threads that store. *)

From Stdlib Require Import ZArith NArith Ascii String Lia.
From stdpp Require Import base tactics option list gmap strings.

Local Open Scope string_scope.

(** ** The parts of Go's standard library the file calls *)

(** [strings.TrimSpace]: the argument without its leading and trailing white
    space, as defined by Unicode.  On a UTF-8 byte string the white space
    runes are the six ASCII ones and the encodings of U+0085, U+00A0, U+1680,
    U+2000..U+200A, U+2028, U+2029, U+202F, U+205F and U+3000; a byte that
    does not start (reading from the left) or end (reading from the right)
    such an encoding is never white space. *)
Module strings.

Definition byte (c : ascii) : N := N_of_ascii c.

(** The table [asciiSpace]: tab, line feed, vertical tab, form feed,
    carriage return and space. *)
Definition asciiSpace (c : ascii) : bool :=
  let n := byte c in
  (n =? 9)%N || (n =? 10)%N || (n =? 11)%N || (n =? 12)%N || (n =? 13)%N
  || (n =? 32)%N.

(** U+0085 is C2 85 and U+00A0 is C2 A0. *)
Definition space2 (b0 b1 : ascii) : bool :=
  (byte b0 =? 194)%N && ((byte b1 =? 133)%N || (byte b1 =? 160)%N).

(** U+1680 is E1 9A 80; U+2000..U+200A are E2 80 80..8A; U+2028, U+2029
    and U+202F are E2 80 A8, A9 and AF; U+205F is E2 81 9F; U+3000 is
    E3 80 80. *)
Definition space3 (b0 b1 b2 : ascii) : bool :=
  let x := byte b0 in let y := byte b1 in let z := byte b2 in
  ((x =? 225)%N && (y =? 154)%N && (z =? 128)%N)
  || ((x =? 226)%N && (y =? 128)%N
      && (((128 <=? z)%N && (z <=? 138)%N)
          || (z =? 168)%N || (z =? 169)%N || (z =? 175)%N))
  || ((x =? 226)%N && (y =? 129)%N && (z =? 159)%N)
  || ((x =? 227)%N && (y =? 128)%N && (z =? 128)%N).

(** Drops the white space runes the string starts with. *)
Fixpoint trimLeft (s : string) : string :=
  match s with
  | EmptyString => EmptyString
  | String b0 t0 =>
      if asciiSpace b0 then trimLeft t0
      else match t0 with
           | EmptyString => s
           | String b1 t1 =>
               if space2 b0 b1 then trimLeft t1
               else match t1 with
                    | EmptyString => s
                    | String b2 t2 =>
                        if space3 b0 b1 b2 then trimLeft t2 else s
                    end
           end
  end.

(** The same from the right end, on the reversed byte sequence: the last
    byte comes first, so the encodings are matched back to front. *)
Fixpoint dropSpacesRev (r : string) : string :=
  match r with
  | EmptyString => EmptyString
  | String b0 t0 =>
      if asciiSpace b0 then dropSpacesRev t0
      else match t0 with
           | EmptyString => r
           | String b1 t1 =>
               if space2 b1 b0 then dropSpacesRev t1
               else match t1 with
                    | EmptyString => r
                    | String b2 t2 =>
                        if space3 b2 b1 b0 then dropSpacesRev t2 else r
                    end
           end
  end.

Definition trimRight (s : string) : string :=
  String.rev (dropSpacesRev (String.rev s)).

Definition TrimSpace (s : string) : string := trimRight (trimLeft s).

End strings.

(** [fmt.Sprintf] for the formats of this file: literal text and the verb
    [%s], whose operands are strings (an operand with a [String] method is
    passed as the text that method returns).  [%%] is a literal percent
    sign, a [%s] without operand prints [%!s(MISSING)] and operands left
    over are reported in a trailing [%!(EXTRA ...)]. *)
Module fmt.

Fixpoint extra (args : list string) : string :=
  match args with
  | [] => ""
  | [a] => "string=" +:+ a
  | a :: rest => "string=" +:+ a +:+ ", " +:+ extra rest
  end.

Fixpoint Sprintf (format : string) (args : list string) : string :=
  match format with
  | EmptyString =>
      match args with
      | [] => ""
      | _ :: _ => "%!(EXTRA " +:+ extra args +:+ ")"
      end
  | String "%" (String "s" rest) =>
      match args with
      | [] => "%!s(MISSING)" +:+ Sprintf rest []
      | a :: args' => a +:+ Sprintf rest args'
      end
  | String "%" (String "%" rest) => String "%" (Sprintf rest args)
  | String c rest => String c (Sprintf rest args)
  end.

End fmt.

(** ** Data model *)

(** [metav1.ConditionStatus] is a string type with three named values. *)
Definition ConditionStatus := string.
Definition ConditionTrue : ConditionStatus := "True".
Definition ConditionFalse : ConditionStatus := "False".
Definition ConditionUnknown : ConditionStatus := "Unknown".

(** [metav1.Time]: an instant, as seconds and nanoseconds counted from the
    zero instant.  Only copying and the zero value matter here. *)
Record Time := mkTime { seconds : Z; nanos : Z }.
Definition zeroTime : Time := mkTime 0 0.

(** [metav1.Condition], fields in declaration order.  [Type] is a reserved
    word, hence [Type_]. *)
Record Condition := mkCondition {
  Type_ : string;
  Status : ConditionStatus;
  ObservedGeneration : Z;
  LastTransitionTime : Time;
  Reason : string;
  Message : string
}.

Definition NotYetReportedReason : string := "NotYetReported".

(** [MirrorOptions] allows to set options for the mirror operation. *)
Record MirrorOptions := mkMirrorOptions {
  targetConditionType : string;
  fallbackStatus : ConditionStatus;
  fallbackReason : string;
  fallbackMessage : string
}.

(** The zero value [MirrorOptions{}]. *)
Definition zeroMirrorOptions : MirrorOptions := mkMirrorOptions "" "" "" "".

#[export] Instance MirrorOptions_inhabited : Inhabited MirrorOptions :=
  populate zeroMirrorOptions.

(** [MirrorOption] is the interface of the directives: a type implements it
    by giving [ApplyToMirror], which receives the [*MirrorOptions] and
    updates the cell it points to. *)
Class MirrorOption (A : Type) := ApplyToMirror : A → MirrorOptions → MirrorOptions.

(** A value of interface type: some implementing type, and a value of it.
    These are the directives that return and do nothing but update the cell
    they are given; the nil interface value and directives that panic or
    keep state of their own are in [Go] below, which also relates the two. *)
Inductive AnyMirrorOption : Type :=
  | Directive (A : Type) (impl : MirrorOption A) (a : A).

Definition applyToMirror (opt : AnyMirrorOption) : MirrorOptions → MirrorOptions :=
  match opt with
  | Directive _ impl a => @ApplyToMirror _ impl a
  end.

(** ** The store of [MirrorOptions] cells *)

Definition loc := positive.
Abbreviation store := (gmap loc MirrorOptions).

(** [&MirrorOptions{...}]: a new cell at an address not in use. *)
Definition alloc (v : MirrorOptions) (σ : store) : loc * store :=
  let l := fresh (dom σ) in (l, <[l := v]> σ).

(** ** The operations of mirror.go *)

(** [ApplyOptions] applies the given list options on these options, and then
    returns itself (for convenient chaining).  The receiver [o] is a pointer:
    each directive updates the cell at [o], and [o] is what is returned. *)
Fixpoint ApplyOptions (o : loc) (opts : list AnyMirrorOption) (σ : store) : loc * store :=
  match opts with
  | [] => (o, σ)
  | opt :: rest => ApplyOptions o rest (alter (applyToMirror opt) o σ)
  end.

(** [BoolToStatus] converts a bool to either [ConditionTrue] or
    [ConditionFalse]. *)
Definition BoolToStatus (status : bool) : ConditionStatus :=
  if status then ConditionTrue else ConditionFalse.

Section Mirror.

(** The objects handed in as [sourceObj] (Go's [any]), and the text that
    [%s] prints for [getConditionOwnerInfo(sourceObj)]; the function is
    defined elsewhere in the package. *)
Context {SourceObj : Type}.
Variable getConditionOwnerInfo : SourceObj → string.

Definition newMirrorCondition (sourceObj : SourceObj) (condition : option Condition)
    (sourceConditionType : string) (opts : list AnyMirrorOption) (σ : store)
    : Condition * store :=
  let '(mirrorOpt, σ) :=
    alloc {| targetConditionType := sourceConditionType;
             fallbackStatus := ""; fallbackReason := ""; fallbackMessage := "" |} σ in
  let '(_, σ) := ApplyOptions mirrorOpt opts σ in
  let conditionOwner := getConditionOwnerInfo sourceObj in
  match condition with
  | Some condition =>
      ({| Type_ := targetConditionType (σ !!! mirrorOpt);
          Status := Status condition;
          ObservedGeneration := 0;
          LastTransitionTime := LastTransitionTime condition;
          Reason := Reason condition;
          Message := strings.TrimSpace
                       (fmt.Sprintf "%s (from %s)" [Message condition; conditionOwner]) |}, σ)
  | None =>
      if decide (fallbackStatus (σ !!! mirrorOpt) ≠ "") then
        ({| Type_ := targetConditionType (σ !!! mirrorOpt);
            Status := fallbackStatus (σ !!! mirrorOpt);
            ObservedGeneration := 0;
            LastTransitionTime := zeroTime;
            Reason := fallbackReason (σ !!! mirrorOpt);
            Message := fallbackMessage (σ !!! mirrorOpt) |}, σ)
      else
        ({| Type_ := targetConditionType (σ !!! mirrorOpt);
            Status := ConditionUnknown;
            ObservedGeneration := 0;
            LastTransitionTime := zeroTime;
            Reason := NotYetReportedReason;
            Message := fmt.Sprintf "Condition %s not yet reported from %s"
                         [sourceConditionType; conditionOwner] |}, σ)
  end.

(** The collaborators of the convenience layer, all defined elsewhere in
    the package: [Get] and [UnstructuredGet] read a condition by type
    ([UnstructuredGet] returns Go's pair of a result and an error), [Set]
    writes one into the target object. *)
Context {Target error : Type}.
Variable Get : SourceObj → string → option Condition.
Variable UnstructuredGet : SourceObj → string → option Condition * option error.
Variable Set_ : Target → Condition → Target.

Definition NewMirrorCondition (sourceObj : SourceObj) (sourceConditionType : string)
    (opts : list AnyMirrorOption) (σ : store) : Condition * store :=
  let condition := Get sourceObj sourceConditionType in
  newMirrorCondition sourceObj condition sourceConditionType opts σ.

Definition SetMirrorCondition (sourceObj : SourceObj) (targetObj : Target)
    (sourceConditionType : string) (opts : list AnyMirrorOption) (σ : store)
    : Target * store :=
  let '(mirrorCondition, σ) := NewMirrorCondition sourceObj sourceConditionType opts σ in
  (Set_ targetObj mirrorCondition, σ).

(** Returns the error (nil is [None]), the target object and the store. *)
Definition SetMirrorConditionFromUnstructured (sourceObj : SourceObj) (targetObj : Target)
    (sourceConditionType : string) (opts : list AnyMirrorOption) (σ : store)
    : option error * Target * store :=
  let '(condition, err) := UnstructuredGet sourceObj sourceConditionType in
  match err with
  | Some err => (Some err, targetObj, σ)
  | None =>
      let '(mirrorCondition, σ) :=
        newMirrorCondition sourceObj condition sourceConditionType opts σ in
      (None, Set_ targetObj mirrorCondition, σ)
  end.

End Mirror.

(** ** The two standard directives *)

(** Modelled from the spec: the directive type [TargetConditionType] is
    declared in another file of the package; it "overrides
    targetConditionType" and nothing else. *)
Record TargetConditionType := mkTargetConditionType { targetType : string }.

#[export] Instance TargetConditionType_ApplyToMirror : MirrorOption TargetConditionType :=
  λ t opts,
    {| targetConditionType := targetType t;
       fallbackStatus := fallbackStatus opts;
       fallbackReason := fallbackReason opts;
       fallbackMessage := fallbackMessage opts |}.

(** Modelled from the spec: the directive type [FallbackCondition] is
    declared in another file of the package; it "sets all three fallback
    fields together (status, reason, message)". *)
Record FallbackCondition := mkFallbackCondition {
  fbStatus : ConditionStatus;
  fbReason : string;
  fbMessage : string
}.

#[export] Instance FallbackCondition_ApplyToMirror : MirrorOption FallbackCondition :=
  λ f opts,
    {| targetConditionType := targetConditionType opts;
       fallbackStatus := fbStatus f;
       fallbackReason := fbReason f;
       fallbackMessage := fbMessage f |}.

Definition withTargetType (t : string) : AnyMirrorOption :=
  Directive TargetConditionType _ (mkTargetConditionType t).

Definition withFallback (status : ConditionStatus) (reason message : string) : AnyMirrorOption :=
  Directive FallbackCondition _ (mkFallbackCondition status reason message).

(** ** Vocabulary of the statements *)

(** What a cell holds after the directives were applied to it, first to
    last. *)
Definition configured (opts : list AnyMirrorOption) (o : MirrorOptions) : MirrorOptions :=
  foldl (λ acc opt, applyToMirror opt acc) o opts.

(** The options a mirror call works with: the target type starts as the
    source type, the fallback is empty, then the directives apply. *)
Definition effectiveOptions (sourceConditionType : string) (opts : list AnyMirrorOption)
    : MirrorOptions :=
  configured opts (mkMirrorOptions sourceConditionType "" "" "").

(** A directive that leaves the target type as it finds it. *)
Definition keepsTargetType (opt : AnyMirrorOption) : Prop :=
  ∀ o, targetConditionType (applyToMirror opt o) = targetConditionType o.

(** The condition of the fallback branch, as the options describe it. *)
Definition fallbackOf (o : MirrorOptions) : Condition :=
  {| Type_ := targetConditionType o; Status := fallbackStatus o;
     ObservedGeneration := 0; LastTransitionTime := zeroTime;
     Reason := fallbackReason o; Message := fallbackMessage o |}.

(** The placeholder for a condition that was not reported. *)
Definition notYetReported (targetType sourceConditionType owner : string) : Condition :=
  {| Type_ := targetType; Status := "Unknown";
     ObservedGeneration := 0; LastTransitionTime := zeroTime;
     Reason := "NotYetReported";
     Message := "Condition " +:+ sourceConditionType +:+ " not yet reported from " +:+ owner |}.

(** The condition a mirror call builds, read off the effective options. *)
Definition mirrorOf (owner : string) (condition : option Condition)
    (sourceConditionType : string) (o : MirrorOptions) : Condition :=
  match condition with
  | Some c =>
      {| Type_ := targetConditionType o; Status := Status c; ObservedGeneration := 0;
         LastTransitionTime := LastTransitionTime c; Reason := Reason c;
         Message := strings.TrimSpace (Message c +:+ " (from " +:+ owner +:+ ")") |}
  | None =>
      if decide (fallbackStatus o ≠ "") then fallbackOf o
      else notYetReported (targetConditionType o) sourceConditionType owner
  end.

(** ** Collaborators used to run the convenience layer on examples *)

Module Example.

(** A source object: its kind and name, and the stored conditions; an
    entry that does not decode carries the decode error instead. *)
Record Object := mkObject {
  kind : string;
  name : string;
  entries : list (string * (Condition + string))
}.

Definition ownerLabel (obj : Object) : string := kind obj +:+ "/" +:+ name obj.

Fixpoint find (entries : list (string * (Condition + string))) (t : string)
    : option (Condition + string) :=
  match entries with
  | [] => None
  | (t', e) :: rest => if decide (t' = t) then Some e else find rest t
  end.

(** Modelled from the spec: the DynamicGetter [UnstructuredGet] is defined
    in another file; "decode may fail", an absent condition is not an
    error. *)
Definition UnstructuredGet (obj : Object) (t : string) : option Condition * option string :=
  match find (entries obj) t with
  | None => (None, None)
  | Some (inl c) => (Some c, None)
  | Some (inr e) => (None, Some e)
  end.

(** Modelled from the spec: the Setter [Set] is defined in another file; it
    "replaces any existing condition of the same Type on object, or appends
    if none exists". *)
Fixpoint Set_ (conditions : list Condition) (c : Condition) : list Condition :=
  match conditions with
  | [] => [c]
  | c' :: rest => if decide (Type_ c' = Type_ c) then c :: rest else c' :: Set_ rest c
  end.

Definition T0 : Time := mkTime 63870000000 0.

Definition m1 : Object :=
  mkObject "Machine" "m1"
    [("Ready", inl (mkCondition "Ready" "False" 7 T0 "WaitingForInfra" "infra not ready"));
     ("Broken", inr "status is not a string")].

End Example.

(** ** Directives as arbitrary code *)

(** How a call ends: it returns, or it panics. *)
Inductive outcome (A : Type) : Type :=
  | Returns (a : A)
  | Panics.
Arguments Returns {A} a.
Arguments Panics {A}.

(** The operations once more, for directive values as Go has them.  A value
    of interface type [MirrorOption] is nil or carries a method, and the
    method is code: it is handed the pointer, it can read and write the
    options cells and whatever else it reaches ([World]), and it can
    panic.  The directives of [AnyMirrorOption] are the ones that return
    and only update the cell they are given. *)
Module Go.

Section Directives.

Context {World : Type}.

Record Method := mkMethod {
  ApplyToMirror : loc → World → store → outcome (World * store)
}.

(** [None] is the nil interface value. *)
Definition MirrorOptionValue := option Method.

(** [for _, opt := range opts { opt.ApplyToMirror(o) }; return o]: the
    method call on a nil interface value panics, and so does the loop when
    a directive does. *)
Fixpoint ApplyOptions (o : loc) (opts : list MirrorOptionValue) (w : World) (σ : store)
    : outcome (loc * World * store) :=
  match opts with
  | [] => Returns (o, w, σ)
  | None :: _ => Panics
  | Some opt :: rest =>
      match ApplyToMirror opt o w σ with
      | Returns (w, σ) => ApplyOptions o rest w σ
      | Panics => Panics
      end
  end.

Context {SourceObj : Type}.
Variable getConditionOwnerInfo : SourceObj → string.

Definition newMirrorCondition (sourceObj : SourceObj) (condition : option Condition)
    (sourceConditionType : string) (opts : list MirrorOptionValue) (w : World) (σ : store)
    : outcome (Condition * World * store) :=
  let '(mirrorOpt, σ) :=
    alloc {| targetConditionType := sourceConditionType;
             fallbackStatus := ""; fallbackReason := ""; fallbackMessage := "" |} σ in
  match ApplyOptions mirrorOpt opts w σ with
  | Panics => Panics
  | Returns (_, w, σ) =>
      let conditionOwner := getConditionOwnerInfo sourceObj in
      match condition with
      | Some condition =>
          Returns
            ({| Type_ := targetConditionType (σ !!! mirrorOpt);
                Status := Status condition;
                ObservedGeneration := 0;
                LastTransitionTime := LastTransitionTime condition;
                Reason := Reason condition;
                Message := strings.TrimSpace
                             (fmt.Sprintf "%s (from %s)"
                                [Message condition; conditionOwner]) |}, w, σ)
      | None =>
          if decide (fallbackStatus (σ !!! mirrorOpt) ≠ "") then
            Returns
              ({| Type_ := targetConditionType (σ !!! mirrorOpt);
                  Status := fallbackStatus (σ !!! mirrorOpt);
                  ObservedGeneration := 0;
                  LastTransitionTime := zeroTime;
                  Reason := fallbackReason (σ !!! mirrorOpt);
                  Message := fallbackMessage (σ !!! mirrorOpt) |}, w, σ)
          else
            Returns
              ({| Type_ := targetConditionType (σ !!! mirrorOpt);
                  Status := ConditionUnknown;
                  ObservedGeneration := 0;
                  LastTransitionTime := zeroTime;
                  Reason := NotYetReportedReason;
                  Message := fmt.Sprintf "Condition %s not yet reported from %s"
                               [sourceConditionType; conditionOwner] |}, w, σ)
      end
  end.

(** A directive of [AnyMirrorOption] as a directive value: not nil, it
    returns, and all it does is update the cell behind the pointer. *)
Definition lift (opt : AnyMirrorOption) : MirrorOptionValue :=
  Some {| ApplyToMirror o w σ := Returns (w, alter (applyToMirror opt) o σ) |}.


End Directives.


End Go.

(** ** Properties *)

(** *** The standard library models behave as documented on the formats
    and strings of this file *)

Lemma Sprintf_from (msg owner : string) :
  fmt.Sprintf "%s (from %s)" [msg; owner] = msg +:+ " (from " +:+ owner +:+ ")".
Proof. reflexivity. Qed.

Lemma string_app_empty_r (s : string) : s +:+ "" = s.
Proof. induction s as [|c s IH]; [done|]. unfold String.app in *. cbn. by rewrite IH. Qed.

Lemma Sprintf_not_yet_reported (t owner : string) :
  fmt.Sprintf "Condition %s not yet reported from %s" [t; owner]
  = "Condition " +:+ t +:+ " not yet reported from " +:+ owner.
Proof. cbn [fmt.Sprintf]. by rewrite string_app_empty_r. Qed.

(** *** What the trim can remove from a mirrored message

    The text that is trimmed ends in a closing parenthesis, which is not
    white space: only leading white space goes, the provenance stays. *)

Lemma string_app_assoc (a b c : string) : (a +:+ b) +:+ c = a +:+ b +:+ c.
Proof.
  induction a as [|x a IH]; [done|].
  change (String x a +:+ b) with (String x (a +:+ b)).
  change (String x (a +:+ b) +:+ c) with (String x ((a +:+ b) +:+ c)).
  by rewrite IH.
Qed.

Lemma rev_app_app (a b c : string) :
  String.rev_app (a +:+ b) c = String.rev_app b (String.rev_app a c).
Proof.
  revert c. induction a as [|x a IH]; intros c; [done|].
  change (String x a +:+ b) with (String x (a +:+ b)). cbn. apply IH.
Qed.

Lemma rev_app_rev_app (a b c : string) :
  String.rev_app (String.rev_app a b) c = String.rev_app b (a +:+ c).
Proof.
  revert b. induction a as [|x a IH]; intros b; [done|].
  cbn. by rewrite IH.
Qed.

Lemma space2_paren (b : ascii) : strings.space2 b ")" = false.
Proof. unfold strings.space2. cbn. apply andb_false_r. Qed.

Lemma space3_paren (b0 b1 : ascii) : strings.space3 b0 b1 ")" = false.
Proof. unfold strings.space3. cbn. by rewrite !andb_false_r. Qed.

Lemma dropSpacesRev_paren (r : string) :
  strings.dropSpacesRev (String ")" r) = String ")" r.
Proof.
  destruct r as [|b1 [|b2 r]]; cbn; [done| |].
  - by rewrite space2_paren.
  - by rewrite space2_paren, space3_paren.
Qed.

Lemma trimRight_paren (s : string) : strings.trimRight (s +:+ ")") = s +:+ ")".
Proof.
  unfold strings.trimRight, String.rev.
  rewrite rev_app_app. cbn [String.rev_app].
  rewrite dropSpacesRev_paren.
  cbn [String.rev_app]. by rewrite rev_app_rev_app.
Qed.

Lemma trimLeft_paren (s : string) : ∃ s', strings.trimLeft (s +:+ ")") = s' +:+ ")".
Proof.
  remember (String.length s) as n eqn:Hn. revert s Hn.
  induction n as [n IH] using lt_wf_ind. intros s Hn.
  destruct s as [|b0 [|b1 [|b2 s]]].
  - by exists "".
  - change (String b0 "" +:+ ")") with (String b0 (String ")" "")).
    cbn. destruct (strings.asciiSpace b0); [by exists ""|].
    rewrite space2_paren. by exists (String b0 "").
  - change (String b0 (String b1 "") +:+ ")") with (String b0 (String b1 (String ")" ""))).
    cbn [strings.trimLeft]. destruct (strings.asciiSpace b0).
    { apply (IH 1 ltac:(cbn in Hn; lia) (String b1 "") eq_refl). }
    destruct (strings.space2 b0 b1); [by exists ""|].
    rewrite space3_paren. by exists (String b0 (String b1 "")).
  - change (String b0 (String b1 (String b2 s)) +:+ ")")
      with (String b0 (String b1 (String b2 (s +:+ ")")))).
    cbn [strings.trimLeft]. cbn in Hn. destruct (strings.asciiSpace b0).
    { apply (IH (S (S (String.length s))) ltac:(lia) (String b1 (String b2 s)) eq_refl). }
    destruct (strings.space2 b0 b1).
    { apply (IH (S (String.length s)) ltac:(lia) (String b2 s) eq_refl). }
    destruct (strings.space3 b0 b1 b2).
    { apply (IH (String.length s) ltac:(lia) s eq_refl). }
    by exists (String b0 (String b1 (String b2 s))).
Qed.

Lemma TrimSpace_mirror_message (msg owner : string) :
  strings.TrimSpace (msg +:+ " (from " +:+ owner +:+ ")")
    = strings.trimLeft (msg +:+ " (from " +:+ owner +:+ ")")
  ∧ ∃ kept, strings.TrimSpace (msg +:+ " (from " +:+ owner +:+ ")") = kept +:+ ")".
Proof.
  unfold strings.TrimSpace.
  rewrite <- !string_app_assoc.
  destruct (trimLeft_paren ((msg +:+ " (from ") +:+ owner)) as [kept Hkept].
  rewrite Hkept, trimRight_paren. split; [done|]. by exists kept.
Qed.

(** *** The store under [ApplyOptions] *)

Lemma ApplyOptions_self (o : loc) (opts : list AnyMirrorOption) (σ : store) :
  (ApplyOptions o opts σ).1 = o.
Proof. revert σ. induction opts as [|opt rest IH]; intros σ; [done|]. apply IH. Qed.

Lemma ApplyOptions_cell (o : loc) (opts : list AnyMirrorOption) (σ : store) :
  (ApplyOptions o opts σ).2 !! o = configured opts <$> σ !! o.
Proof.
  revert σ. induction opts as [|opt rest IH]; intros σ; cbn.
  - by destruct (σ !! o).
  - rewrite IH, lookup_alter_eq. by destruct (σ !! o).
Qed.

Lemma ApplyOptions_frame (o l : loc) (opts : list AnyMirrorOption) (σ : store) :
  l ≠ o → (ApplyOptions o opts σ).2 !! l = σ !! l.
Proof.
  intros Hne. revert σ. induction opts as [|opt rest IH]; intros σ; cbn; [done|].
  rewrite IH. by apply lookup_alter_ne.
Qed.

Lemma ApplyOptions_app (o : loc) (opts1 opts2 : list AnyMirrorOption) (σ : store) :
  ApplyOptions o (opts1 ++ opts2) σ = ApplyOptions o opts2 (ApplyOptions o opts1 σ).2.
Proof. revert σ. induction opts1 as [|opt rest IH]; intros σ; cbn; [done|]. apply IH. Qed.

Lemma configured_app (opts1 opts2 : list AnyMirrorOption) (o : MirrorOptions) :
  configured (opts1 ++ opts2) o = configured opts2 (configured opts1 o).
Proof. apply foldl_app. Qed.

(** The cell that [newMirrorCondition] allocates holds, after the
    directives, the effective options: the store the call starts from does
    not show in it. *)
Lemma fresh_cell_configured (v : MirrorOptions) (opts : list AnyMirrorOption) (σ : store) :
  (ApplyOptions (alloc v σ).1 opts (alloc v σ).2).2 !!! (alloc v σ).1 = configured opts v.
Proof.
  unfold alloc; cbn. apply lookup_total_correct.
  by rewrite ApplyOptions_cell, lookup_insert_eq.
Qed.

Lemma newMirrorCondition_value {SourceObj : Type} (owner : SourceObj → string)
    (src : SourceObj) (condition : option Condition) (t : string)
    (opts : list AnyMirrorOption) (σ : store) :
  (newMirrorCondition owner src condition t opts σ).1
  = mirrorOf (owner src) condition t (effectiveOptions t opts).
Proof.
  unfold newMirrorCondition, effectiveOptions.
  pose proof (fresh_cell_configured (mkMirrorOptions t "" "" "") opts σ) as Hcell.
  destruct (alloc _ σ) as [l σ1]; cbn in Hcell.
  destruct (ApplyOptions l opts σ1) as [l' σ2]; cbn in Hcell.
  rewrite Hcell. destruct condition as [c|].
  - by rewrite Sprintf_from.
  - rewrite Sprintf_not_yet_reported. unfold mirrorOf. by case_decide.
Qed.

Lemma newMirrorCondition_store {SourceObj : Type} (owner : SourceObj → string)
    (src : SourceObj) (condition : option Condition) (t : string)
    (opts : list AnyMirrorOption) (σ : store) :
  (newMirrorCondition owner src condition t opts σ).2
  = (ApplyOptions (alloc (mkMirrorOptions t "" "" "") σ).1 opts
       (alloc (mkMirrorOptions t "" "" "") σ).2).2.
Proof.
  unfold newMirrorCondition.
  destruct (alloc _ σ) as [l σ1]; cbn [fst snd].
  destruct (ApplyOptions l opts σ1) as [l' σ2]; cbn [fst snd].
  destruct condition; [done|]. by case_decide.
Qed.

(** The builder leaves the cells of the store it is called in as they are:
    its own cell is new. *)
Lemma newMirrorCondition_frame {SourceObj : Type} (owner : SourceObj → string)
    (src : SourceObj) (condition : option Condition) (t : string)
    (opts : list AnyMirrorOption) (σ : store) (l : loc) :
  l ∈ dom σ → (newMirrorCondition owner src condition t opts σ).2 !! l = σ !! l.
Proof.
  intros Hl. rewrite newMirrorCondition_store. unfold alloc; cbn [fst snd].
  assert (l ≠ fresh (dom σ)) as Hne.
  { intros ->. by apply (is_fresh (dom σ)). }
  rewrite ApplyOptions_frame by done. by apply lookup_insert_ne.
Qed.

Lemma configured_keeps (opts : list AnyMirrorOption) (o : MirrorOptions) :
  Forall keepsTargetType opts →
  targetConditionType (configured opts o) = targetConditionType o.
Proof.
  intros Hkeep. revert o.
  induction Hkeep as [|opt rest Hopt _ IH]; intros o; [done|].
  change (configured (opt :: rest) o) with (configured rest (applyToMirror opt o)).
  by rewrite IH, Hopt.
Qed.

Lemma effectiveOptions_keeps (t : string) (opts : list AnyMirrorOption) :
  Forall keepsTargetType opts → targetConditionType (effectiveOptions t opts) = t.
Proof. intros Hkeep. unfold effectiveOptions. by rewrite configured_keeps. Qed.

Lemma withFallback_keeps (status : ConditionStatus) (reason message : string) :
  keepsTargetType (withFallback status reason message).
Proof. by intros o. Qed.

(** *** The mirror builder *)

Section Builder.

Context {SourceObj : Type} (owner : SourceObj → string).
Implicit Types (src : SourceObj) (c : Condition) (t : string)
  (opts : list AnyMirrorOption) (σ : store).

(** C1. Source condition present: the mirror has the target type, the
    status, reason and last transition time of the source condition, and
    as message the trimmed text "<message> (from <owner label>)". *)
Theorem mirror_of_present_condition src c t opts σ :
  (newMirrorCondition owner src (Some c) t opts σ).1
  = {| Type_ := targetConditionType (effectiveOptions t opts);
       Status := Status c;
       ObservedGeneration := 0;
       LastTransitionTime := LastTransitionTime c;
       Reason := Reason c;
       Message := strings.TrimSpace (Message c +:+ " (from " +:+ owner src +:+ ")") |}.
Proof. by rewrite newMirrorCondition_value. Qed.

(** C2. Source condition absent and a non-empty fallback status: the
    mirror has the target type and the fallback status, reason and message
    as configured, nothing appended, and no transition time. *)
Theorem mirror_of_absent_condition_fallback src t opts σ :
  fallbackStatus (effectiveOptions t opts) ≠ "" →
  (newMirrorCondition owner src None t opts σ).1
  = {| Type_ := targetConditionType (effectiveOptions t opts);
       Status := fallbackStatus (effectiveOptions t opts);
       ObservedGeneration := 0;
       LastTransitionTime := zeroTime;
       Reason := fallbackReason (effectiveOptions t opts);
       Message := fallbackMessage (effectiveOptions t opts) |}.
Proof.
  intros Hset. rewrite newMirrorCondition_value. unfold mirrorOf.
  by case_decide.
Qed.

(** C3. Source condition absent and no fallback status: the mirror has
    the target type, status Unknown, reason NotYetReported, the message
    "Condition <source type> not yet reported from <owner label>", and no
    transition time. *)
Theorem mirror_of_absent_condition_placeholder src t opts σ :
  fallbackStatus (effectiveOptions t opts) = "" →
  (newMirrorCondition owner src None t opts σ).1
  = {| Type_ := targetConditionType (effectiveOptions t opts);
       Status := ConditionUnknown;
       ObservedGeneration := 0;
       LastTransitionTime := zeroTime;
       Reason := "NotYetReported";
       Message := "Condition " +:+ t +:+ " not yet reported from " +:+ owner src |}.
Proof.
  intros Hunset. rewrite newMirrorCondition_value. unfold mirrorOf.
  by case_decide.
Qed.

(** C5. In all three cases the type of the mirror is the target type of
    the effective options, which is the source type when no directive of
    the call changes the target type. *)
Theorem mirror_type_is_target_type src (condition : option Condition) t opts σ :
  Type_ (newMirrorCondition owner src condition t opts σ).1
    = targetConditionType (effectiveOptions t opts)
  ∧ (Forall keepsTargetType opts →
     Type_ (newMirrorCondition owner src condition t opts σ).1 = t).
Proof.
  assert (Htype : Type_ (newMirrorCondition owner src condition t opts σ).1
                  = targetConditionType (effectiveOptions t opts)).
  { rewrite newMirrorCondition_value. unfold mirrorOf.
    destruct condition; [done|]. by case_decide. }
  split; [done|]. intros Hkeep. rewrite Htype.
  by apply effectiveOptions_keeps.
Qed.

(** C7. In all three cases the observed generation of the mirror is
    zero, whatever the source condition carries. *)
Theorem mirror_observed_generation_unset src (condition : option Condition) t opts σ :
  ObservedGeneration (newMirrorCondition owner src condition t opts σ).1 = 0%Z.
Proof.
  rewrite newMirrorCondition_value. unfold mirrorOf.
  destruct condition; [done|]. by case_decide.
Qed.

(** C9. Source condition absent: the fallback condition is the result
    exactly when the fallback status is non-empty; with an empty fallback
    status the result is the placeholder, whatever the fallback reason and
    message are. *)
Theorem fallback_selected_by_status_only src t opts σ :
  ((newMirrorCondition owner src None t opts σ).1 = fallbackOf (effectiveOptions t opts)
     ↔ fallbackStatus (effectiveOptions t opts) ≠ "")
  ∧ (fallbackStatus (effectiveOptions t opts) = "" →
     (newMirrorCondition owner src None t opts σ).1
     = notYetReported (targetConditionType (effectiveOptions t opts)) t (owner src)).
Proof.
  rewrite newMirrorCondition_value. unfold mirrorOf.
  case_decide as Hset; split.
  - by split.
  - intros Hunset. by destruct Hset.
  - split; [|done]. intros Heq. apply (f_equal Status) in Heq. cbn in Heq.
    rewrite Hset in Heq. discriminate.
  - done.
Qed.

End Builder.

(** *** Option directives *)

(** C6. [ApplyOptions] returns the pointer it was called on; the cell
    behind it then holds the result of applying the directives first to
    last, so a directive that writes a value into a field, when it comes
    last, decides that field whatever the earlier ones wrote; no other cell
    changes. *)
Theorem ApplyOptions_in_order_on_receiver (o : loc) (opts : list AnyMirrorOption) (σ : store) :
  (ApplyOptions o opts σ).1 = o
  ∧ (ApplyOptions o opts σ).2 !! o = configured opts <$> σ !! o
  ∧ (∀ opt, (ApplyOptions o (opts ++ [opt]) σ).2 !! o
            = applyToMirror opt <$> (ApplyOptions o opts σ).2 !! o)
  ∧ (∀ opt (field : MirrorOptions → string) (x : string),
       (∀ v, field (applyToMirror opt v) = x) →
       field <$> (ApplyOptions o (opts ++ [opt]) σ).2 !! o = (λ _, x) <$> σ !! o)
  ∧ (∀ l, l ≠ o → (ApplyOptions o opts σ).2 !! l = σ !! l).
Proof.
  assert (Hlast : ∀ opt, (ApplyOptions o (opts ++ [opt]) σ).2 !! o
                         = applyToMirror opt <$> (ApplyOptions o opts σ).2 !! o).
  { intros opt. rewrite !ApplyOptions_cell.
    destruct (σ !! o) as [v|]; cbn; [|done]. by rewrite configured_app. }
  repeat split.
  - apply ApplyOptions_self.
  - apply ApplyOptions_cell.
  - apply Hlast.
  - intros opt field x Hwrites. rewrite Hlast, ApplyOptions_cell.
    destruct (σ !! o); cbn; [|done]. by rewrite Hwrites.
  - intros l Hne. by apply ApplyOptions_frame.
Qed.

(** *** The convenience layer *)

Section Convenience.

Context {SourceObj Target error : Type} (owner : SourceObj → string).
Context (UnstructuredGet : SourceObj → string → option Condition * option error).
Context (Set_ : Target → Condition → Target).

(** C4. When decoding the source condition fails, that error is what is
    returned and the target object (and the store) is the one passed in;
    when it succeeds, no error is returned and the target object is the
    outcome of setting the mirrored condition on it. *)
Theorem SetMirrorConditionFromUnstructured_decode
    (src : SourceObj) (tgt : Target) (t : string)
    (opts : list AnyMirrorOption) (σ : store) :
  (∀ condition err,
     UnstructuredGet src t = (condition, Some err) →
     SetMirrorConditionFromUnstructured owner UnstructuredGet Set_ src tgt t opts σ
     = (Some err, tgt, σ))
  ∧ (∀ condition,
     UnstructuredGet src t = (condition, None) →
     SetMirrorConditionFromUnstructured owner UnstructuredGet Set_ src tgt t opts σ
     = (None,
        Set_ tgt (newMirrorCondition owner src condition t opts σ).1,
        (newMirrorCondition owner src condition t opts σ).2)).
Proof.
  unfold SetMirrorConditionFromUnstructured. split.
  - intros condition err ->. done.
  - intros condition ->.
    by destruct (newMirrorCondition owner src condition t opts σ).
Qed.

End Convenience.

(** *** The status helper *)

(** C10. [BoolToStatus] sends true to True and false to False, two
    different statuses, and no boolean to Unknown. *)
Theorem BoolToStatus_total :
  BoolToStatus true = ConditionTrue
  ∧ BoolToStatus false = ConditionFalse
  ∧ ConditionTrue ≠ ConditionFalse
  ∧ ∀ b, BoolToStatus b ≠ ConditionUnknown.
Proof. repeat split; [done|]. by intros []. Qed.

(** *** The builder under arbitrary directives *)

(** On directives that only update their cell the two embeddings of
    [ApplyOptions] agree. *)
Lemma Go_ApplyOptions_lift {World : Type} (o : loc) (opts : list AnyMirrorOption)
    (w : World) (σ : store) :
  Go.ApplyOptions o (Go.lift <$> opts) w σ
  = Returns ((ApplyOptions o opts σ).1, w, (ApplyOptions o opts σ).2).
Proof.
  revert σ. induction opts as [|opt rest IH]; intros σ; [done|].
  cbn. apply IH.
Qed.

(** And so do the two embeddings of the builder. *)
Lemma Go_newMirrorCondition_lift {World SourceObj : Type} (owner : SourceObj → string)
    (src : SourceObj) (condition : option Condition) (t : string)
    (opts : list AnyMirrorOption) (w : World) (σ : store) :
  Go.newMirrorCondition owner src condition t (Go.lift <$> opts) w σ
  = Returns ((newMirrorCondition owner src condition t opts σ).1, w,
             (newMirrorCondition owner src condition t opts σ).2).
Proof.
  unfold Go.newMirrorCondition, newMirrorCondition.
  destruct (alloc _ σ) as [l σ1]. rewrite Go_ApplyOptions_lift.
  destruct (ApplyOptions l opts σ1) as [l' σ2]; cbn [fst snd].
  destruct condition; [done|]. by case_decide.
Qed.






(** ** The properties on concrete calls *)

(** Scenario of the specification: a present condition, no options. *)
Example mirror_ready_of_m1 :
  (NewMirrorCondition Example.ownerLabel
     (λ obj t, (Example.UnstructuredGet obj t).1) Example.m1 "Ready" [] ∅).1
  = mkCondition "Ready" "False" 0 Example.T0 "WaitingForInfra"
      "infra not ready (from Machine/m1)".
Proof. vm_compute. reflexivity. Qed.

(** An empty source message leaves the provenance alone: the trim removes
    the separating blank. *)
Example mirror_of_empty_message :
  Message (newMirrorCondition Example.ownerLabel Example.m1
             (Some (mkCondition "Ready" "True" 3 Example.T0 "AsExpected" "")) "Ready" [] ∅).1
  = "(from Machine/m1)".
Proof. vm_compute. reflexivity. Qed.

(** Non-breaking spaces (C2 A0) count as white space on both ends. *)
Example TrimSpace_utf8 :
  strings.TrimSpace (String "194" (String "160" (" ok " +:+ String "194" (String "160" ""))))
  = "ok".
Proof. vm_compute. reflexivity. Qed.

Lemma mirror_of_absent_condition_fallback_witness :
  fallbackStatus
    (effectiveOptions "Ready"
       [withTargetType "InfraReady"; withFallback "True" "Provisioned" "infra is up"]) ≠ ""
  ∧ (newMirrorCondition Example.ownerLabel Example.m1 None "Ready"
       [withTargetType "InfraReady"; withFallback "True" "Provisioned" "infra is up"] ∅).1
    = mkCondition "InfraReady" "True" 0 zeroTime "Provisioned" "infra is up".
Proof.
  split; [vm_compute; discriminate|].
  apply (mirror_of_absent_condition_fallback Example.ownerLabel Example.m1 "Ready"
           [withTargetType "InfraReady"; withFallback "True" "Provisioned" "infra is up"] ∅).
  vm_compute; discriminate.
Defined.

Lemma mirror_of_absent_condition_placeholder_witness :
  fallbackStatus (effectiveOptions "Ready" []) = ""
  ∧ (newMirrorCondition Example.ownerLabel Example.m1 None "Ready" [] ∅).1
    = mkCondition "Ready" "Unknown" 0 zeroTime "NotYetReported"
        "Condition Ready not yet reported from Machine/m1".
Proof.
  split; [reflexivity|].
  apply (mirror_of_absent_condition_placeholder Example.ownerLabel Example.m1 "Ready" [] ∅).
  reflexivity.
Defined.

Lemma mirror_type_is_target_type_witness :
  Forall keepsTargetType [withFallback "True" "Provisioned" "infra is up"]
  ∧ Type_ (newMirrorCondition Example.ownerLabel Example.m1 None "Ready"
             [withFallback "True" "Provisioned" "infra is up"] ∅).1 = "Ready".
Proof.
  assert (Hkeep : Forall keepsTargetType [withFallback "True" "Provisioned" "infra is up"]).
  { repeat constructor. }
  split; [exact Hkeep|].
  exact (proj2 (mirror_type_is_target_type Example.ownerLabel Example.m1 None "Ready"
                  [withFallback "True" "Provisioned" "infra is up"] ∅) Hkeep).
Defined.



Lemma fallback_selected_by_status_only_witness :
  fallbackStatus (effectiveOptions "Ready" [withFallback "" "Provisioned" "infra is up"]) = ""
  ∧ (newMirrorCondition Example.ownerLabel Example.m1 None "Ready"
       [withFallback "" "Provisioned" "infra is up"] ∅).1
    = mkCondition "Ready" "Unknown" 0 zeroTime "NotYetReported"
        "Condition Ready not yet reported from Machine/m1".
Proof.
  split; [reflexivity|].
  apply (proj2 (fallback_selected_by_status_only Example.ownerLabel Example.m1 "Ready"
                  [withFallback "" "Provisioned" "infra is up"] ∅)).
  reflexivity.
Defined.

Lemma ApplyOptions_in_order_on_receiver_witness :
  (∀ v, targetConditionType (applyToMirror (withTargetType "B") v) = "B")
  ∧ targetConditionType
      <$> (ApplyOptions 1%positive ([withTargetType "A"] ++ [withTargetType "B"])
             {[1%positive := zeroMirrorOptions; 2%positive := zeroMirrorOptions]}).2 !! 1%positive
    = Some "B"
  ∧ (2%positive ≠ 1%positive)
  ∧ (ApplyOptions 1%positive [withTargetType "A"]
       {[1%positive := zeroMirrorOptions; 2%positive := zeroMirrorOptions]}).2 !! 2%positive
    = Some zeroMirrorOptions.
Proof.
  pose proof (ApplyOptions_in_order_on_receiver 1%positive [withTargetType "A"]
                {[1%positive := zeroMirrorOptions; 2%positive := zeroMirrorOptions]})
    as (_ & _ & _ & Hwrite & Hframe).
  split; [reflexivity|]. split.
  - apply (Hwrite (withTargetType "B") targetConditionType "B"). reflexivity.
  - split; [discriminate|]. apply (Hframe 2%positive). discriminate.
Defined.

Lemma SetMirrorConditionFromUnstructured_decode_witness :
  Example.UnstructuredGet Example.m1 "Broken" = (None, Some "status is not a string")
  ∧ SetMirrorConditionFromUnstructured Example.ownerLabel Example.UnstructuredGet Example.Set_
      Example.m1 [] "Broken" [] ∅
    = (Some "status is not a string", [], ∅)
  ∧ Example.UnstructuredGet Example.m1 "Ready"
    = (Some (mkCondition "Ready" "False" 7 Example.T0 "WaitingForInfra" "infra not ready"), None)
  ∧ (SetMirrorConditionFromUnstructured Example.ownerLabel Example.UnstructuredGet Example.Set_
       Example.m1 [] "Ready" [] ∅).1
    = (None, [mkCondition "Ready" "False" 0 Example.T0 "WaitingForInfra"
                "infra not ready (from Machine/m1)"]).
Proof.
  pose proof (SetMirrorConditionFromUnstructured_decode Example.ownerLabel
                Example.UnstructuredGet Example.Set_ Example.m1 [] "Broken" [] ∅) as [Herr _].
  pose proof (SetMirrorConditionFromUnstructured_decode Example.ownerLabel
                Example.UnstructuredGet Example.Set_ Example.m1 [] "Ready" [] ∅) as [_ Hok].
  split; [reflexivity|]. split; [by apply (Herr None)|].
  split; [reflexivity|].
  rewrite (Hok (Some (mkCondition "Ready" "False" 7 Example.T0 "WaitingForInfra"
                        "infra not ready")) eq_refl).
  vm_compute. reflexivity.
Defined.

(** *** The mirrored message in closed form *)

Lemma space2_blank (b : ascii) : strings.space2 b " " = false.
Proof. unfold strings.space2. cbn. apply andb_false_r. Qed.

Lemma space3_blank_mid (b0 b2 : ascii) : strings.space3 b0 " " b2 = false.
Proof. unfold strings.space3. cbn. by rewrite !andb_false_r. Qed.

Lemma space3_blank (b0 b1 : ascii) : strings.space3 b0 b1 " " = false.
Proof. unfold strings.space3. cbn. by rewrite !andb_false_r. Qed.

Lemma trimLeft_open_paren (rest : string) :
  strings.trimLeft (String "(" rest) = String "(" rest.
Proof. by destruct rest as [|b1 [|b2 rest]]. Qed.

(** Trimming on the left of "<msg> (<rest>": the blank before the
    parenthesis goes only when nothing of [msg] is left. *)
Lemma trimLeft_before_paren (msg rest : string) :
  strings.trimLeft (msg +:+ String " " (String "(" rest))
  = match strings.trimLeft msg with
    | EmptyString => String "(" rest
    | String b kept => String b kept +:+ String " " (String "(" rest)
    end.
Proof.
  assert (Hnil : strings.trimLeft (String " " (String "(" rest)) = String "(" rest).
  { change (strings.trimLeft (String " " (String "(" rest)))
      with (strings.trimLeft (String "(" rest)).
    apply trimLeft_open_paren. }
  remember (String.length msg) as n eqn:Hn. revert msg Hn.
  induction n as [n IH] using lt_wf_ind. intros msg Hn.
  destruct msg as [|b0 [|b1 [|b2 msg]]].
  - exact Hnil.
  - change (String b0 "" +:+ String " " (String "(" rest))
      with (String b0 (String " " (String "(" rest))).
    cbn [strings.trimLeft]. destruct (strings.asciiSpace b0); [exact Hnil|].
    by rewrite space2_blank, space3_blank_mid.
  - change (String b0 (String b1 "") +:+ String " " (String "(" rest))
      with (String b0 (String b1 (String " " (String "(" rest)))).
    cbn [strings.trimLeft]. destruct (strings.asciiSpace b0).
    { apply (IH 1 ltac:(cbn in Hn; lia) (String b1 "") eq_refl). }
    destruct (strings.space2 b0 b1); [exact Hnil|].
    by rewrite space3_blank.
  - change (String b0 (String b1 (String b2 msg)) +:+ String " " (String "(" rest))
      with (String b0 (String b1 (String b2 (msg +:+ String " " (String "(" rest))))).
    cbn [strings.trimLeft]. cbn in Hn. destruct (strings.asciiSpace b0).
    { apply (IH (S (S (String.length msg))) ltac:(lia) (String b1 (String b2 msg)) eq_refl). }
    destruct (strings.space2 b0 b1).
    { apply (IH (S (String.length msg)) ltac:(lia) (String b2 msg) eq_refl). }
    destruct (strings.space3 b0 b1 b2); [|done].
    apply (IH (String.length msg) ltac:(lia) msg eq_refl).
Qed.

Lemma trimLeft_idempotent (s : string) :
  strings.trimLeft (strings.trimLeft s) = strings.trimLeft s.
Proof.
  remember (String.length s) as n eqn:Hn. revert s Hn.
  induction n as [n IH] using lt_wf_ind. intros s Hn.
  destruct s as [|b0 [|b1 [|b2 s]]]; [done| | |].
  - cbn. by destruct (strings.asciiSpace b0) eqn:E0; cbn; rewrite ?E0.
  - cbn [strings.trimLeft]. destruct (strings.asciiSpace b0) eqn:E0.
    { apply (IH 1 ltac:(cbn in Hn; lia) (String b1 "") eq_refl). }
    destruct (strings.space2 b0 b1) eqn:E1; [done|].
    cbn [strings.trimLeft]. by rewrite E0, E1.
  - cbn [strings.trimLeft]. cbn in Hn. destruct (strings.asciiSpace b0) eqn:E0.
    { apply (IH (S (S (String.length s))) ltac:(lia) (String b1 (String b2 s)) eq_refl). }
    destruct (strings.space2 b0 b1) eqn:E1.
    { apply (IH (S (String.length s)) ltac:(lia) (String b2 s) eq_refl). }
    destruct (strings.space3 b0 b1 b2) eqn:E2.
    { apply (IH (String.length s) ltac:(lia) s eq_refl). }
    cbn [strings.trimLeft]. by rewrite E0, E1, E2.
Qed.

Lemma TrimSpace_from_closed (msg owner : string) :
  strings.TrimSpace (msg +:+ " (from " +:+ owner +:+ ")")
  = match strings.trimLeft msg with
    | EmptyString => "(from " +:+ owner +:+ ")"
    | String b kept => String b kept +:+ " (from " +:+ owner +:+ ")"
    end.
Proof.
  rewrite (proj1 (TrimSpace_mirror_message _ _)).
  apply (trimLeft_before_paren msg ("from " +:+ owner +:+ ")")).
Qed.

Lemma string_length_app (a b : string) :
  String.length (a +:+ b) = String.length a + String.length b.
Proof.
  induction a as [|x a IH]; [done|].
  change (String x a +:+ b) with (String x (a +:+ b)). cbn. by rewrite IH.
Qed.

Lemma trimLeft_length (s : string) :
  (String.length (strings.trimLeft s) ≤ String.length s)%nat.
Proof.
  remember (String.length s) as n eqn:Hn. revert s Hn.
  induction n as [n IH] using lt_wf_ind. intros s Hn.
  destruct s as [|b0 [|b1 [|b2 s]]]; cbn in Hn; [cbn; lia| | |].
  - cbn. destruct (strings.asciiSpace b0); cbn; lia.
  - cbn [strings.trimLeft]. cbn in Hn. destruct (strings.asciiSpace b0).
    { pose proof (IH 1 ltac:(lia) (String b1 "") eq_refl). cbn in *. lia. }
    destruct (strings.space2 b0 b1); cbn; lia.
  - cbn [strings.trimLeft]. cbn in Hn. destruct (strings.asciiSpace b0).
    { pose proof (IH (S (S (String.length s))) ltac:(lia) (String b1 (String b2 s)) eq_refl). cbn in *. lia. }
    destruct (strings.space2 b0 b1).
    { pose proof (IH (S (String.length s)) ltac:(lia) (String b2 s) eq_refl). cbn in *. lia. }
    destruct (strings.space3 b0 b1 b2); [|cbn; lia].
    pose proof (IH (String.length s) ltac:(lia) s eq_refl). lia.
Qed.

(** ** Further properties of the operations *)

Section Further.

Context {SourceObj Target error : Type} (owner : SourceObj → string).
Context (Get : SourceObj → string → option Condition).
Context (UnstructuredGet : SourceObj → string → option Condition * option error).
Context (Set_ : Target → Condition → Target).
Implicit Types (src : SourceObj) (c : Condition) (t : string)
  (opts : list AnyMirrorOption) (σ : store).

(** X1. Chaining on the returned pointer: applying a second list of
    directives to what [ApplyOptions] returned is applying the two lists
    in one call, one after the other. *)
Theorem ApplyOptions_chained (o : loc) (opts1 opts2 : list AnyMirrorOption) σ :
  ApplyOptions (ApplyOptions o opts1 σ).1 opts2 (ApplyOptions o opts1 σ).2
  = ApplyOptions o (opts1 ++ opts2) σ.
Proof. by rewrite ApplyOptions_self, ApplyOptions_app. Qed.

(** X2. With the source condition present, the directives and the source
    type count only through the target type they yield: the fallback is
    never looked at. *)
Theorem present_condition_ignores_fallback src c t1 t2 opts1 opts2 σ1 σ2 :
  targetConditionType (effectiveOptions t1 opts1)
    = targetConditionType (effectiveOptions t2 opts2) →
  (newMirrorCondition owner src (Some c) t1 opts1 σ1).1
  = (newMirrorCondition owner src (Some c) t2 opts2 σ2).1.
Proof.
  intros Htype. rewrite !newMirrorCondition_value. unfold mirrorOf.
  by rewrite Htype.
Qed.

(** X3. The message of a mirrored condition in closed form: the source
    message without its leading white space, a blank and "(from <owner>)";
    when nothing of the source message is left, "(from <owner>)" alone.
    White space at the end of the source message stays. *)
Theorem mirror_message_closed_form src c t opts σ :
  Message (newMirrorCondition owner src (Some c) t opts σ).1
  = match strings.trimLeft (Message c) with
    | EmptyString => "(from " +:+ owner src +:+ ")"
    | String b kept => String b kept +:+ " (from " +:+ owner src +:+ ")"
    end.
Proof.
  rewrite newMirrorCondition_value. cbn [mirrorOf Message].
  apply TrimSpace_from_closed.
Qed.

(** X4. Mirroring a mirror: the second mirror still has the status,
    reason and last transition time of the original condition, and its
    message is the first mirror's message followed by the second
    provenance, nothing trimmed. *)
Theorem mirror_of_mirror srcA srcB c tA tB optsA optsB σA σB :
  (newMirrorCondition owner srcB
     (Some (newMirrorCondition owner srcA (Some c) tA optsA σA).1) tB optsB σB).1
  = {| Type_ := targetConditionType (effectiveOptions tB optsB);
       Status := Status c;
       ObservedGeneration := 0;
       LastTransitionTime := LastTransitionTime c;
       Reason := Reason c;
       Message := Message (newMirrorCondition owner srcA (Some c) tA optsA σA).1
                  +:+ " (from " +:+ owner srcB +:+ ")" |}.
Proof.
  rewrite (newMirrorCondition_value owner srcB), (newMirrorCondition_value owner srcA).
  cbn [mirrorOf Status Reason LastTransitionTime Message]. f_equal.
  destruct (TrimSpace_mirror_message (Message c) (owner srcA)) as [Hleft [kept Hkept]].
  set (m1 := strings.TrimSpace (Message c +:+ " (from " +:+ owner srcA +:+ ")")) in *.
  rewrite (proj1 (TrimSpace_mirror_message m1 (owner srcB))).
  change (m1 +:+ " (from " +:+ owner srcB +:+ ")")
    with (m1 +:+ String " " (String "(" ("from " +:+ owner srcB +:+ ")"))).
  rewrite trimLeft_before_paren.
  assert (Hfix : strings.trimLeft m1 = m1).
  { rewrite Hleft. apply trimLeft_idempotent. }
  rewrite Hfix, Hkept. by destruct kept.
Qed.

(** X5. The two setters agree: when the dynamic getter finds, without
    error, what the typed getter finds, [SetMirrorConditionFromUnstructured]
    returns no error and leaves the target as [SetMirrorCondition] does. *)
Theorem setters_agree src (tgt : Target) t opts σ :
  UnstructuredGet src t = (Get src t, None) →
  SetMirrorConditionFromUnstructured owner UnstructuredGet Set_ src tgt t opts σ
  = (None,
     (SetMirrorCondition owner Get Set_ src tgt t opts σ).1,
     (SetMirrorCondition owner Get Set_ src tgt t opts σ).2).
Proof.
  intros Hget. unfold SetMirrorConditionFromUnstructured, SetMirrorCondition,
    NewMirrorCondition. rewrite Hget.
  by destruct (newMirrorCondition owner src (Get src t) t opts σ).
Qed.

(** X6. [SetMirrorCondition] on a source object that lacks the condition
    still writes: without a fallback status the target receives the
    Unknown / NotYetReported placeholder under the target type, its message
    naming the source type. *)
Theorem SetMirrorCondition_missing_condition src (tgt : Target) t opts σ :
  Get src t = None →
  fallbackStatus (effectiveOptions t opts) = "" →
  (SetMirrorCondition owner Get Set_ src tgt t opts σ).1
  = Set_ tgt (notYetReported (targetConditionType (effectiveOptions t opts)) t (owner src)).
Proof.
  intros Hmissing Hunset. unfold SetMirrorCondition, NewMirrorCondition.
  rewrite Hmissing.
  pose proof (newMirrorCondition_value owner src None t opts σ) as Hvalue.
  destruct (newMirrorCondition owner src None t opts σ) as [mirror σ'].
  cbn [fst] in *. rewrite Hvalue. unfold mirrorOf. by case_decide.
Qed.

(** X7. The message of a mirrored condition is never empty and grows by
    at most eight bytes and the owner label: its length lies between that
    of "(from <owner>)" and that of "<message> (from <owner>)". *)
Theorem mirror_message_length src c t opts σ :
  (String.length (owner src) + 7
     ≤ String.length (Message (newMirrorCondition owner src (Some c) t opts σ).1))%nat
  ∧ (String.length (Message (newMirrorCondition owner src (Some c) t opts σ).1)
     ≤ String.length (Message c) + String.length (owner src) + 8)%nat.
Proof.
  rewrite newMirrorCondition_value. cbn [mirrorOf Message].
  rewrite TrimSpace_from_closed.
  pose proof (trimLeft_length (Message c)) as Hle.
  destruct (strings.trimLeft (Message c)) as [|b kept];
    rewrite !string_length_app, ?string_length_app; cbn in *; lia.
Qed.

End Further.

Lemma present_condition_ignores_fallback_witness :
  targetConditionType
    (effectiveOptions "Ready" [withFallback "True" "Provisioned" "infra is up"])
  = targetConditionType (effectiveOptions "InfraReady" [withTargetType "Ready"])
  ∧ (newMirrorCondition Example.ownerLabel Example.m1
       (Some (mkCondition "Ready" "False" 7 Example.T0 "WaitingForInfra" "infra not ready"))
       "Ready" [withFallback "True" "Provisioned" "infra is up"] ∅).1
    = (newMirrorCondition Example.ownerLabel Example.m1
         (Some (mkCondition "Ready" "False" 7 Example.T0 "WaitingForInfra" "infra not ready"))
         "InfraReady" [withTargetType "Ready"] {[1%positive := zeroMirrorOptions]}).1.
Proof.
  split; [reflexivity|].
  apply (present_condition_ignores_fallback Example.ownerLabel Example.m1).
  reflexivity.
Defined.

Lemma setters_agree_witness :
  Example.UnstructuredGet Example.m1 "Ready"
  = ((Example.UnstructuredGet Example.m1 "Ready").1, None)
  ∧ SetMirrorConditionFromUnstructured Example.ownerLabel Example.UnstructuredGet
      Example.Set_ Example.m1 [] "Ready" [] ∅
    = (None,
       (SetMirrorCondition Example.ownerLabel (λ obj t, (Example.UnstructuredGet obj t).1)
          Example.Set_ Example.m1 [] "Ready" [] ∅).1,
       (SetMirrorCondition Example.ownerLabel (λ obj t, (Example.UnstructuredGet obj t).1)
          Example.Set_ Example.m1 [] "Ready" [] ∅).2).
Proof.
  split; [reflexivity|].
  apply (setters_agree Example.ownerLabel (λ obj t, (Example.UnstructuredGet obj t).1)
           Example.UnstructuredGet Example.Set_ Example.m1 [] "Ready" [] ∅).
  reflexivity.
Defined.

Lemma SetMirrorCondition_missing_condition_witness :
  (Example.UnstructuredGet Example.m1 "Available").1 = None
  ∧ fallbackStatus (effectiveOptions "Available" [withTargetType "InfraAvailable"]) = ""
  ∧ (SetMirrorCondition Example.ownerLabel (λ obj t, (Example.UnstructuredGet obj t).1)
       Example.Set_ Example.m1 [] "Available" [withTargetType "InfraAvailable"] ∅).1
    = [mkCondition "InfraAvailable" "Unknown" 0 zeroTime "NotYetReported"
         "Condition Available not yet reported from Machine/m1"].
Proof.
  split; [reflexivity|]. split; [reflexivity|].
  apply (SetMirrorCondition_missing_condition Example.ownerLabel
           (λ obj t, (Example.UnstructuredGet obj t).1) Example.Set_ Example.m1 []
           "Available" [withTargetType "InfraAvailable"] ∅); reflexivity.
Defined.

(** White space after the source message is kept, white space before it is
    not. *)
Example mirror_message_inner_blanks :
  Message (newMirrorCondition Example.ownerLabel Example.m1
             (Some (mkCondition "Ready" "True" 0 zeroTime "AsExpected" "  up  ")) "Ready" [] ∅).1
  = "up   (from Machine/m1)".
Proof. vm_compute. reflexivity. Qed.
